(** * Lead qualification scorer of the sales toolkit

    A shallow embedding of [score_lead] and of the ranking done by
    [call_tool] in [src/lead_qualification_server.py].

    A contact is a row produced by [csv.DictReader]: a Python dict from
    column names to strings, where a short row holds [None] ([restval]).
    [contact.get(k, d)] is a map lookup with a default. *)

From stdpp Require Import base gmap strings list fin_maps pretty.
From Stdlib Require Import ZArith String.
Open Scope string_scope.
Open Scope list_scope.

(** ** Python values stored in a contact *)

Inductive pyval : Type :=
| PStr (s : string)
| PNone.

Definition pyval_eqb (v w : pyval) : bool :=
  match v, w with
  | PStr s, PStr t => String.eqb s t
  | PNone, PNone => true
  | _, _ => false
  end.

(** [f"{v}"]: [str] of a value. *)
Definition py_str (v : pyval) : string :=
  match v with
  | PStr s => s
  | PNone => "None"
  end.

(** [v in l] for a list of string literals: [==] against each element. *)
Definition py_in (v : pyval) (l : list string) : bool :=
  existsb (fun s => pyval_eqb v (PStr s)) l.

Abbreviation contact := (gmap string pyval).

(** [contact.get(k, d)] *)
Definition dict_get (c : contact) (k : string) (d : pyval) : pyval :=
  match c !! k with
  | Some v => v
  | None => d
  end.

(** ** Configuration *)

(** [SCORING], in the dict's insertion order. *)
Definition SCORING : list (string * Z) :=
  [("company_type", 35%Z); ("has_auto_lending", 35%Z); ("company_size", 10%Z);
   ("title", 10%Z); ("source", 5%Z); ("state", 5%Z)].

Definition SCORING_get (k : string) : Z :=
  match find (fun p => String.eqb (fst p) k) SCORING with
  | Some (_, w) => w
  | None => 0%Z
  end.

Record icp_required := {
  req_company_type : list string;
  req_country : list string;
  req_has_auto_lending : bool
}.

Record icp_preferred := {
  pref_company_size : list string;
  pref_titles : list string;
  pref_sources : list string;
  pref_states : list string
}.

Record icp_config := {
  icp_name : string;
  icp_description : string;
  icp_req : icp_required;
  icp_pref : icp_preferred
}.

Definition ICP_CONFIG : icp_config := {|
  icp_name := "EnFi Primary ICP";
  icp_description :=
    "Credit unions in the United States with indirect auto lending business";
  icp_req := {|
    req_company_type := ["Credit Union"];
    req_country := ["United States"];
    req_has_auto_lending := true |};
  icp_pref := {|
    pref_company_size := ["201-1000"; "1000+"];
    pref_titles := ["CFO"; "VP of Finance"; "COO"; "CEO";
                    "Chief Lending Officer"; "VP of Lending"; "SVP of Lending"];
    pref_sources := ["Referral"; "Inbound Demo Request"; "Conference"];
    pref_states := [] |}
|}.

(** [max_score = sum(SCORING.values())] *)
Definition max_score : Z := fold_right (fun p acc => (snd p + acc)%Z) 0%Z SCORING.

(** ** Rounding

    [score_pct] is kept in tenths of a percent, as an integer. The source
    computes [round((score / max_score) * 100, 1)] in binary floating
    point; for the integer scores [0..max_score] with [max_score = 100]
    the float error is far below the 0.05 rounding step, so the result is
    the exact rational [100 * score / max_score] rounded half-to-even to
    one decimal, which is what [round_half_even] computes. The
    disqualified branch stores the integer [0], equal to [0.0] in every
    comparison made on [score_pct]. *)
Definition round_half_even (n d : Z) : Z :=
  let q := (n / d)%Z in
  let r := (n mod d)%Z in
  if (2 * r <? d)%Z then q
  else if (d <? 2 * r)%Z then (q + 1)%Z
  else if Z.even q then q else (q + 1)%Z.

Definition pct_tenths (score : Z) : Z := round_half_even (1000 * score) max_score.

(** ** Reading a contact

    [score_lead] only touches its argument through [contact.get]. The
    embedding threads the contact dict through the evaluation as state,
    so that a read that changed the dict would show up in the final
    state. *)

Definition St (A : Type) : Type := contact -> A * contact.

Global Instance St_ret : MRet St := fun A x c => (x, c).
Global Instance St_bind : MBind St :=
  fun A B (k : A -> St B) (m : St A) c => let '(x, c') := m c in k x c'.

(** [contact.get(k, d)] as a step of the evaluation. *)
Definition get_st (k : string) (d : pyval) : St pyval :=
  fun c => (dict_get c k d, c).

Definition run {A} (m : St A) (c : contact) : A * contact := m c.

(** ** The returned record *)

Record ScoredLead := {
  contact_id : pyval;
  name : pyval;
  company : pyval;
  company_type : pyval;
  title : pyval;
  email : pyval;
  phone : pyval;
  state : pyval;
  source : pyval;
  created : pyval;
  score : Z;
  score_pct : Z;  (* tenths of a percent, see [pct_tenths] *)
  tier : string;
  priority : string;
  reasons : list string;
  gaps : list string;
  disqualified : bool
}.

(** The tier chain of the non-disqualified branch, on [score_pct] in
    tenths: [score_pct >= 90], [>= 80], [>= 70], else. *)
Definition tier_of (pct : Z) : string * string :=
  if (900 <=? pct)%Z then ("A - Excellent", "🔥")
  else if (800 <=? pct)%Z then ("B - Strong", "✅")
  else if (700 <=? pct)%Z then ("C - Qualified", "⚠️")
  else ("D - Weak", "🤔").

(** [score_lead(contact)] *)
Definition score_lead_st : St ScoredLead :=
  let score := 0%Z in
  let reasons : list string := [] in
  let gaps : list string := [] in
  let disqualified := false in
  (* Company Type (35 points) *)
  company_type ← get_st "Company_Type" (PStr "");
  let '(score, reasons, gaps, disqualified) :=
    if py_in company_type (req_company_type (icp_req ICP_CONFIG))
    then ((score + SCORING_get "company_type")%Z,
          reasons ++ ["✓ Perfect fit: " +:+ py_str company_type], gaps, disqualified)
    else (score, reasons, gaps ++ ["✗ NOT A CREDIT UNION: " +:+ py_str company_type], true) in
  (* Auto Lending (35 points) *)
  has_auto_v ← get_st "Has_Auto_Lending" (PStr "No");
  let has_auto := pyval_eqb has_auto_v (PStr "Yes") in
  let '(score, reasons, gaps, disqualified) :=
    if has_auto
    then ((score + SCORING_get "has_auto_lending")%Z,
          reasons ++ ["✓ Has indirect auto lending"], gaps, disqualified)
    else (score, reasons, gaps ++ ["✗ NO AUTO LENDING BUSINESS"], true) in
  (* Company Size (10 points) *)
  company_size ← get_st "Company_Size" (PStr "");
  let '(score, reasons) :=
    if py_in company_size (pref_company_size (icp_pref ICP_CONFIG))
    then ((score + SCORING_get "company_size")%Z,
          reasons ++ ["✓ Good size: " +:+ py_str company_size +:+ " employees"])
    else (score, reasons ++ ["• Size: " +:+ py_str company_size +:+ " employees"]) in
  (* Title (10 points) *)
  title ← get_st "Job_Title" (PStr "");
  let '(score, reasons) :=
    if py_in title (pref_titles (icp_pref ICP_CONFIG))
    then ((score + SCORING_get "title")%Z,
          reasons ++ ["✓ Decision maker: " +:+ py_str title])
    else (score, reasons ++ ["• Title: " +:+ py_str title]) in
  (* Source (5 points) *)
  source ← get_st "Source" (PStr "");
  let '(score, reasons) :=
    if py_in source (pref_sources (icp_pref ICP_CONFIG))
    then ((score + SCORING_get "source")%Z,
          reasons ++ ["✓ High-intent: " +:+ py_str source])
    else (score, reasons ++ ["• Source: " +:+ py_str source]) in
  (* Geography (5 points) *)
  state ← get_st "State" (PStr "");
  let priority_states := pref_states (icp_pref ICP_CONFIG) in
  let '(score, reasons) :=
    if negb (bool_decide (priority_states ≠ [])) || py_in state priority_states
    then ((score + SCORING_get "state")%Z,
          reasons ++ ["✓ Location: " +:+ py_str state])
    else (score, reasons) in
  (* Calculate final score *)
  let '(score_pct, tier, priority) :=
    if disqualified then (0%Z, "DISQUALIFIED", "❌")
    else let pct := pct_tenths score in
         let '(t, p) := tier_of pct in (pct, t, p) in
  contact_id ← get_st "Contact_ID" PNone;
  name ← get_st "Person_Name" PNone;
  company ← get_st "Company_Name" PNone;
  email ← get_st "Email" PNone;
  phone ← get_st "Phone" PNone;
  created ← get_st "Created_Date" PNone;
  mret {| contact_id := contact_id; name := name; company := company;
          company_type := company_type; title := title; email := email;
          phone := phone; state := state; source := source; created := created;
          score := score; score_pct := score_pct; tier := tier;
          priority := priority; reasons := reasons; gaps := gaps;
          disqualified := disqualified |}.

Definition score_lead (c : contact) : ScoredLead := fst (run score_lead_st c).

(** ** The conditions [score_lead] tests, read off the source *)

(** [contact.get('Company_Type', '') in ICP_CONFIG['required']['company_type']] *)
Definition company_type_ok (c : contact) : bool :=
  py_in (dict_get c "Company_Type" (PStr "")) (req_company_type (icp_req ICP_CONFIG)).

(** [contact.get('Has_Auto_Lending', 'No') == 'Yes'] *)
Definition has_auto_ok (c : contact) : bool :=
  pyval_eqb (dict_get c "Has_Auto_Lending" (PStr "No")) (PStr "Yes").

(** [contact.get('Company_Size', '') in ICP_CONFIG['preferred']['company_size']] *)
Definition company_size_ok (c : contact) : bool :=
  py_in (dict_get c "Company_Size" (PStr "")) (pref_company_size (icp_pref ICP_CONFIG)).

(** [contact.get('Job_Title', '') in ICP_CONFIG['preferred']['titles']] *)
Definition title_ok (c : contact) : bool :=
  py_in (dict_get c "Job_Title" (PStr "")) (pref_titles (icp_pref ICP_CONFIG)).

(** [contact.get('Source', '') in ICP_CONFIG['preferred']['sources']] *)
Definition source_ok (c : contact) : bool :=
  py_in (dict_get c "Source" (PStr "")) (pref_sources (icp_pref ICP_CONFIG)).

(** [not priority_states or state in priority_states] *)
Definition state_ok (c : contact) : bool :=
  let priority_states := pref_states (icp_pref ICP_CONFIG) in
  negb (bool_decide (priority_states ≠ [])) ||
  py_in (dict_get c "State" (PStr "")) priority_states.

(** ** Ranking: [scored.sort(key=lambda x: x['score_pct'], reverse=True)]

    Python's sort is stable, also with [reverse=True]: leads with equal
    [score_pct] keep their order. A stable sort has a unique result, which
    the insertion sort below computes: a lead goes in front of the first
    lead whose key is not larger than its own. *)

Fixpoint insert_desc (x : ScoredLead) (l : list ScoredLead) : list ScoredLead :=
  match l with
  | [] => [x]
  | y :: l' =>
      if (score_pct y <=? score_pct x)%Z then x :: y :: l'
      else y :: insert_desc x l'
  end.

Fixpoint sort_by_score_pct (l : list ScoredLead) : list ScoredLead :=
  match l with
  | [] => []
  | x :: l' => insert_desc x (sort_by_score_pct l')
  end.

(** ** The two list builders of [call_tool]

    [score_all_leads]: [[score_lead(c) for c in contacts]], then the
    [qualified_only] filter. *)
Definition score_all_qualified (contacts : list contact) : list ScoredLead :=
  filter (fun s => negb (disqualified s) = true) (map score_lead contacts).

(** [get_priority_list]:
    [[score_lead(c) for c in contacts if not score_lead(c)['disqualified']]].
    The condition is evaluated first; the element is a second call of
    [score_lead] on the contact as the first call left it. *)
Fixpoint priority_scored (contacts : list contact) : list ScoredLead :=
  match contacts with
  | [] => []
  | c :: cs =>
      let '(s, c') := run score_lead_st c in
      if negb (disqualified s)
      then fst (run score_lead_st c') :: priority_scored cs
      else priority_scored cs
  end.

(** ** Python list slicing: [l[:n]]

    A negative bound counts from the end; a bound past either end is
    clamped. *)
Definition py_take {A} (n : Z) (l : list A) : list A :=
  if (0 <=? n)%Z then firstn (Z.to_nat n) l
  else firstn (Z.to_nat (Z.of_nat (List.length l) + n)) l.

(** ** [read_contacts_from_s3]

    The S3 client is the environment: [list_objects_v2] answers with the
    [Contents] entry of its response ([None] when the key is absent) or
    raises; [get_object] followed by the UTF-8 decode and the
    [csv.DictReader] parse yields the rows or raises. A raised exception
    is represented by its message [str(e)]. [LastModified] is a timestamp. *)
Record s3_object := {
  Key : string;
  LastModified : Z
}.

Record s3_env := {
  list_objects_v2 : option (list s3_object) + string;
  get_object_rows : string -> list contact + string
}.

(** [sorted(xs, key=key, reverse=True)], stable like the [ScoredLead]
    ranking above. *)
Fixpoint insert_desc_by {A} (key : A -> Z) (x : A) (l : list A) : list A :=
  match l with
  | [] => [x]
  | y :: l' => if (key y <=? key x)%Z then x :: y :: l' else y :: insert_desc_by key x l'
  end.

Fixpoint sort_desc_by {A} (key : A -> Z) (l : list A) : list A :=
  match l with
  | [] => []
  | x :: l' => insert_desc_by key x (sort_desc_by key l')
  end.

Definition read_contacts_from_s3 (env : s3_env) : option (list contact) * option string :=
  match list_objects_v2 env with
  | inr e => (None, Some ("Error reading contacts: " +:+ e))
  | inl None => (None, Some "No contact data found in S3")
  | inl (Some contents) =>
      let files := sort_desc_by LastModified contents in
      match files with
      | [] => (None, Some ("Error reading contacts: " +:+ "list index out of range"))
      | latest :: _ =>
          match get_object_rows env (Key latest) with
          | inr e => (None, Some ("Error reading contacts: " +:+ e))
          | inl contacts => (Some contacts, None)
          end
      end
  end.

(** ** [call_tool]

    Tool arguments are the JSON object the client sent, decoded by
    Python's [json]: a JSON value is [None], a [bool], an [int], a [float]
    (finite, given by its exact value [num / den], or one of the
    infinities, or NaN), a [str], a [list] or a [dict]. Strings are
    modelled over ASCII text. An exception escaping [call_tool] is [inr]
    with its class; falling off the end of the function returns [None]. *)
#[warnings="-register-all"]
Inductive jsonval : Type :=
| JNull
| JBool (b : bool)
| JInt (n : Z)
| JFloat (num : Z) (den : positive)
| JInf (negative : bool)
| JNaN
| JStr (s : string)
| JList (l : list jsonval)
| JObj (m : list (string * jsonval)).

Inductive py_exc : Type :=
| TypeError
| ValueError
| OverflowError.

Abbreviation arguments := (gmap string jsonval).

Definition args_get (a : arguments) (k : string) (d : jsonval) : jsonval :=
  match a !! k with Some v => v | None => d end.

(** Python truthiness. *)
Definition py_truthy (v : jsonval) : bool :=
  match v with
  | JNull => false
  | JBool b => b
  | JInt n => negb (Z.eqb n 0)
  | JFloat num _ => negb (Z.eqb num 0)
  | JInf _ => true
  | JNaN => true
  | JStr s => negb (String.eqb s "")
  | JList l => negb (Nat.eqb (List.length l) 0)
  | JObj m => negb (Nat.eqb (List.length m) 0)
  end.

(** [int(s)] for a [str], base 10: surrounding whitespace
    ([Py_ISSPACE]: space, tab, LF, VT, FF, CR) is skipped, then an
    optional sign, then decimal digits where a single underscore may
    separate two digits. More than 4300 digits raise [ValueError]
    ([sys.get_int_max_str_digits()]). *)
Definition py_isspace (c : Ascii.ascii) : bool :=
  let n := Ascii.nat_of_ascii c in
  Nat.eqb n 32 || (Nat.leb 9 n && Nat.leb n 13).

Definition digit_val (c : Ascii.ascii) : option Z :=
  let n := Ascii.nat_of_ascii c in
  if Nat.leb 48 n && Nat.leb n 57 then Some (Z.of_nat n - 48)%Z else None.

Fixpoint skip_space (l : list Ascii.ascii) : list Ascii.ascii :=
  match l with
  | c :: l' => if py_isspace c then skip_space l' else l
  | [] => []
  end.

Definition py_strip (l : list Ascii.ascii) : list Ascii.ascii :=
  rev (skip_space (rev (skip_space l))).

(** The digits after the first one: the value so far and the number of
    digits read. *)
Fixpoint digits_rest (l : list Ascii.ascii) (acc : Z) (cnt : nat) : option (Z * nat) :=
  match l with
  | [] => Some (acc, cnt)
  | c :: l' =>
    match digit_val c with
    | Some d => digits_rest l' (10 * acc + d)%Z (S cnt)
    | None =>
      if Ascii.eqb c (Ascii.ascii_of_nat 95) then
        match l' with
        | c' :: l'' =>
          match digit_val c' with
          | Some d => digits_rest l'' (10 * acc + d)%Z (S cnt)
          | None => None
          end
        | [] => None
        end
      else None
    end
  end.

Definition digits_body (l : list Ascii.ascii) : option (Z * nat) :=
  match l with
  | c :: l' => match digit_val c with Some d => digits_rest l' d 1 | None => None end
  | [] => None
  end.

Definition py_int_str (s : string) : Z + py_exc :=
  let l := py_strip (list_ascii_of_string s) in
  let '(neg, body) :=
    match l with
    | c :: l' =>
      if Ascii.eqb c (Ascii.ascii_of_nat 45) then (true, l')
      else if Ascii.eqb c (Ascii.ascii_of_nat 43) then (false, l')
      else (false, l)
    | [] => (false, [])
    end in
  match digits_body body with
  | None => inr ValueError
  | Some (v, cnt) =>
    if Nat.ltb 4300 cnt then inr ValueError
    else inl (if neg then (- v)%Z else v)
  end.



(** [f"{lead['score_pct']}"]: the integer [0] when disqualified, else the
    float repr of a value with one decimal. *)
Definition pct_str (s : ScoredLead) : string :=
  if disqualified s then "0"
  else pretty (score_pct s / 10)%Z +:+ "." +:+ pretty (score_pct s mod 10)%Z.




(** The ranked list of [score_all_leads]. *)
Definition score_all_leads_ranked (contacts : list contact) (a : arguments) : list ScoredLead :=
  let scored := map score_lead contacts in
  let scored :=
    if py_truthy (args_get a "qualified_only" (JBool true))
    then filter (fun s => negb (disqualified s) = true) scored
    else scored in
  sort_by_score_pct scored.

(** The ranked list of [get_priority_list], before the slice. *)
Definition priority_ranked (contacts : list contact) : list ScoredLead :=
  sort_by_score_pct (priority_scored contacts).



(** The list [main] prints in test mode: the qualified leads, ranked,
    of which the first five are shown. *)
Definition main_test_top5 (contacts : list contact) : list ScoredLead :=
  py_take 5 (sort_by_score_pct
               (filter (fun s => negb (disqualified s) = true) (map score_lead contacts))).

(** ** Sample contacts *)

Definition mk_contact (fields : list (string * string)) : contact :=
  list_to_map ((fun p => (fst p, PStr (snd p))) <$> fields).

(** The spec's first example contact. *)
Definition ideal_contact : contact :=
  mk_contact [("Contact_ID", "CONT10001"); ("Company_Type", "Credit Union");
              ("Has_Auto_Lending", "Yes"); ("Country", "United States");
              ("Company_Size", "1000+"); ("Job_Title", "CFO");
              ("Source", "Referral"); ("State", "CA")].

(** Required criteria met, no preferred list matched. *)
Definition plain_cu_contact : contact :=
  mk_contact [("Contact_ID", "CONT10002"); ("Company_Type", "Credit Union");
              ("Has_Auto_Lending", "Yes"); ("Country", "United States");
              ("Company_Size", "1-50"); ("Job_Title", "Controller");
              ("Source", "Cold Outreach"); ("State", "TX")].

(** The ideal contact, but located in Canada. *)
Definition canadian_contact : contact :=
  <["Country" := PStr "Canada"]> ideal_contact.

(** The spec's second example: a community bank with auto lending. *)
Definition bank_contact : contact :=
  mk_contact [("Contact_ID", "CONT10003"); ("Company_Type", "Community Bank");
              ("Has_Auto_Lending", "Yes"); ("Country", "United States");
              ("Company_Size", "1000+"); ("Job_Title", "CFO");
              ("Source", "Referral"); ("State", "NY")].

(** * Properties *)

Example ideal_contact_scored :
  score (score_lead ideal_contact) = 100%Z /\ tier (score_lead ideal_contact) = "A - Excellent".
Proof. vm_compute. split; reflexivity. Qed.

(** Unfold one evaluation of [score_lead] and split on every test it makes. *)
Ltac unfold_score_lead :=
  unfold score_lead, run, score_lead_st, get_st, mbind, St_bind, mret, St_ret;
  cbn [fst snd].

Ltac split_tests c :=
  unfold company_type_ok, has_auto_ok, company_size_ok, title_ok, source_ok, state_ok;
  destruct (py_in (dict_get c "Company_Type" (PStr "")) _);
  destruct (pyval_eqb (dict_get c "Has_Auto_Lending" (PStr "No")) (PStr "Yes"));
  destruct (py_in (dict_get c "Company_Size" (PStr "")) _);
  destruct (py_in (dict_get c "Job_Title" (PStr "")) _);
  destruct (py_in (dict_get c "Source" (PStr "")) _);
  cbn.

Lemma score_lead_disqualified (c : contact) :
  disqualified (score_lead c) = negb (company_type_ok c && has_auto_ok c).
Proof. unfold_score_lead. split_tests c; reflexivity. Qed.

Definition weight_if (b : bool) (w : Z) : Z := if b then w else 0%Z.

Lemma score_lead_score (c : contact) :
  score (score_lead c) =
    (weight_if (company_type_ok c) 35 + weight_if (has_auto_ok c) 35 +
     weight_if (company_size_ok c) 10 + weight_if (title_ok c) 10 +
     weight_if (source_ok c) 5 + weight_if (state_ok c) 5)%Z.
Proof. unfold_score_lead. split_tests c; reflexivity. Qed.

Lemma score_lead_score_pct (c : contact) :
  score_pct (score_lead c) =
    if disqualified (score_lead c) then 0%Z else pct_tenths (score (score_lead c)).
Proof.
  unfold_score_lead. split_tests c; try reflexivity;
  match goal with |- context [tier_of ?p] => destruct (tier_of p) end; reflexivity.
Qed.

Lemma score_lead_tier (c : contact) :
  tier (score_lead c) =
    if disqualified (score_lead c) then "DISQUALIFIED"
    else fst (tier_of (score_pct (score_lead c))).
Proof.
  unfold_score_lead. split_tests c; try reflexivity;
  match goal with |- context [tier_of ?p] => destruct (tier_of p) end; reflexivity.
Qed.

Lemma state_ok_always (c : contact) : state_ok c = true.
Proof. reflexivity. Qed.

(** With [max_score = 100] the percentage is the score itself. *)
Lemma pct_tenths_exact (s : Z) : pct_tenths s = (10 * s)%Z.
Proof.
  unfold pct_tenths, round_half_even.
  change max_score with 100%Z.
  replace (1000 * s)%Z with (10 * s * 100)%Z by lia.
  rewrite Z.div_mul, Z.mod_mul by lia. reflexivity.
Qed.

(** A failed company-type or auto-lending test disqualifies. *)
Lemma score_lead_required_fail (c : contact) :
  company_type_ok c = false \/ has_auto_ok c = false ->
  disqualified (score_lead c) = true /\ score_pct (score_lead c) = 0%Z /\
  tier (score_lead c) = "DISQUALIFIED".
Proof.
  intros Hf.
  assert (Hd : disqualified (score_lead c) = true).
  { rewrite score_lead_disqualified.
    destruct Hf as [-> | ->]; [reflexivity | now rewrite andb_false_r]. }
  rewrite score_lead_score_pct, score_lead_tier, Hd. auto.
Qed.

(** C1 (code_bug). The required [country] entry of [ICP_CONFIG] is never
    consulted: a Canadian credit union with auto lending is not
    disqualified, it scores 100.0 and is tier A. *)
Theorem score_lead_non_us_contact_qualifies :
  canadian_contact !! "Country" = Some (PStr "Canada") /\
  req_country (icp_req ICP_CONFIG) = ["United States"] /\
  disqualified (score_lead canadian_contact) = false /\
  score_pct (score_lead canadian_contact) = 1000%Z /\
  tier (score_lead canadian_contact) = "A - Excellent".
Proof. vm_compute. repeat split. Qed.

(** C2 (counterexample). A disqualified contact does not get [score = 0]:
    the community bank example is disqualified with a raw score of 65. *)
Lemma disqualified_score_nonzero :
  ~ (forall c : contact,
       disqualified (score_lead c) = true -> score (score_lead c) = 0%Z).
Proof.
  intros H.
  specialize (H bank_contact ltac:(vm_compute; reflexivity)).
  vm_compute in H. discriminate H.
Qed.

(** C2 (amended). When [score_lead] disqualifies a contact it sets
    [score_pct] to 0 and the tier to DISQUALIFIED, but [score] keeps the
    raw sum of the weights of the tests the contact passed, which lies
    between 5 and 65. *)
Theorem disqualified_score_pct_zero_raw_score_kept (c : contact)
  (H : disqualified (score_lead c) = true) :
  score_pct (score_lead c) = 0%Z /\ tier (score_lead c) = "DISQUALIFIED" /\
  score (score_lead c) =
    (weight_if (company_type_ok c) 35 + weight_if (has_auto_ok c) 35 +
     weight_if (company_size_ok c) 10 + weight_if (title_ok c) 10 +
     weight_if (source_ok c) 5 + weight_if (state_ok c) 5)%Z /\
  (5 <= score (score_lead c) <= 65)%Z.
Proof.
  rewrite score_lead_score_pct, score_lead_tier, H.
  split; [reflexivity | split; [reflexivity |]].
  split; [apply score_lead_score |].
  rewrite score_lead_disqualified in H.
  rewrite score_lead_score, state_ok_always.
  destruct (company_type_ok c), (has_auto_ok c); try discriminate H;
  destruct (company_size_ok c), (title_ok c), (source_ok c); cbn; lia.
Qed.

Lemma disqualified_score_pct_zero_raw_score_kept_witness :
  disqualified (score_lead bank_contact) = true /\
  score_pct (score_lead bank_contact) = 0%Z /\
  tier (score_lead bank_contact) = "DISQUALIFIED" /\
  score (score_lead bank_contact) =
    (weight_if (company_type_ok bank_contact) 35 + weight_if (has_auto_ok bank_contact) 35 +
     weight_if (company_size_ok bank_contact) 10 + weight_if (title_ok bank_contact) 10 +
     weight_if (source_ok bank_contact) 5 + weight_if (state_ok bank_contact) 5)%Z /\
  (5 <= score (score_lead bank_contact) <= 65)%Z.
Proof.
  split; [vm_compute; reflexivity |].
  apply (disqualified_score_pct_zero_raw_score_kept bank_contact).
  vm_compute; reflexivity.
Defined.

(** C3 (counterexample). A contact that meets the required criteria and
    none of the company-size, title and source lists does not score 70:
    the state points are always awarded, so it scores 75. *)
Lemma required_only_score_not_70 :
  ~ (forall c : contact,
       company_type_ok c = true -> has_auto_ok c = true ->
       company_size_ok c = false -> title_ok c = false -> source_ok c = false ->
       score (score_lead c) = 70%Z /\ score_pct (score_lead c) = 700%Z /\
       tier (score_lead c) = "C - Qualified").
Proof.
  intros H.
  destruct (H plain_cu_contact) as [Hs _]; try (vm_compute; reflexivity).
  vm_compute in Hs. discriminate Hs.
Qed.

(** C3 (amended). A contact that meets the required criteria and matches
    none of the company-size, title and source lists scores 75 (35 + 35
    plus the 5 state points, always awarded since the preferred state
    list is empty), score_pct 75.0, tier C. *)
Theorem required_only_score_75 (c : contact)
  (Hct : company_type_ok c = true) (Ha : has_auto_ok c = true)
  (Hsz : company_size_ok c = false) (Ht : title_ok c = false)
  (Hsrc : source_ok c = false) :
  score (score_lead c) = 75%Z /\ score_pct (score_lead c) = 750%Z /\
  tier (score_lead c) = "C - Qualified".
Proof.
  assert (Hs : score (score_lead c) = 75%Z).
  { rewrite score_lead_score, Hct, Ha, Hsz, Ht, Hsrc, state_ok_always. reflexivity. }
  assert (Hd : disqualified (score_lead c) = false).
  { rewrite score_lead_disqualified, Hct, Ha. reflexivity. }
  assert (Hp : score_pct (score_lead c) = 750%Z).
  { rewrite score_lead_score_pct, Hd, Hs. reflexivity. }
  rewrite score_lead_tier, Hd, Hp. auto.
Qed.

Lemma required_only_score_75_witness :
  company_type_ok plain_cu_contact = true /\ has_auto_ok plain_cu_contact = true /\
  company_size_ok plain_cu_contact = false /\ title_ok plain_cu_contact = false /\
  source_ok plain_cu_contact = false /\
  score (score_lead plain_cu_contact) = 75%Z /\
  score_pct (score_lead plain_cu_contact) = 750%Z /\
  tier (score_lead plain_cu_contact) = "C - Qualified".
Proof.
  do 5 (split; [vm_compute; reflexivity |]).
  apply (required_only_score_75 plain_cu_contact); vm_compute; reflexivity.
Defined.

(** C4. A contact that meets every required and every preferred criterion
    scores 100, score_pct 100.0, tier A, and is not disqualified. *)
Theorem all_criteria_score_100 (c : contact)
  (Hct : company_type_ok c = true) (Ha : has_auto_ok c = true)
  (Hsz : company_size_ok c = true) (Ht : title_ok c = true)
  (Hsrc : source_ok c = true) :
  score (score_lead c) = 100%Z /\ score_pct (score_lead c) = 1000%Z /\
  tier (score_lead c) = "A - Excellent" /\ disqualified (score_lead c) = false.
Proof.
  assert (Hs : score (score_lead c) = 100%Z).
  { rewrite score_lead_score, Hct, Ha, Hsz, Ht, Hsrc, state_ok_always. reflexivity. }
  assert (Hd : disqualified (score_lead c) = false).
  { rewrite score_lead_disqualified, Hct, Ha. reflexivity. }
  assert (Hp : score_pct (score_lead c) = 1000%Z).
  { rewrite score_lead_score_pct, Hd, Hs. reflexivity. }
  rewrite score_lead_tier, Hd, Hp. auto.
Qed.

Lemma all_criteria_score_100_witness :
  company_type_ok ideal_contact = true /\ has_auto_ok ideal_contact = true /\
  company_size_ok ideal_contact = true /\ title_ok ideal_contact = true /\
  source_ok ideal_contact = true /\
  score (score_lead ideal_contact) = 100%Z /\
  score_pct (score_lead ideal_contact) = 1000%Z /\
  tier (score_lead ideal_contact) = "A - Excellent" /\
  disqualified (score_lead ideal_contact) = false.
Proof.
  do 5 (split; [vm_compute; reflexivity |]).
  apply (all_criteria_score_100 ideal_contact); vm_compute; reflexivity.
Defined.

(** C5. For a contact that is not disqualified the tier is chosen by
    inclusive lower bounds on score_pct, tested from the highest: 90.0
    and above is A, 80.0 up to 89.9 is B, 70.0 up to 79.9 is C, below is
    D; the chain maps 90.0 to A and 89.9 to B. *)
Theorem tier_thresholds_inclusive (c : contact)
  (H : disqualified (score_lead c) = false) :
  let p := score_pct (score_lead c) in
  ((900 <= p)%Z -> tier (score_lead c) = "A - Excellent") /\
  ((800 <= p < 900)%Z -> tier (score_lead c) = "B - Strong") /\
  ((700 <= p < 800)%Z -> tier (score_lead c) = "C - Qualified") /\
  ((p < 700)%Z -> tier (score_lead c) = "D - Weak") /\
  fst (tier_of 900) = "A - Excellent" /\ fst (tier_of 899) = "B - Strong".
Proof.
  cbv zeta. rewrite score_lead_tier, H.
  generalize (score_pct (score_lead c)) as p. intros p.
  unfold tier_of.
  repeat split; intros Hp;
  repeat match goal with
         | |- context [(?a <=? ?b)%Z] =>
             destruct (Z.leb_spec a b); try lia
         end; reflexivity.
Qed.

Lemma tier_thresholds_inclusive_witness :
  disqualified (score_lead ideal_contact) = false /\
  tier (score_lead ideal_contact) = "A - Excellent".
Proof.
  assert (Hd : disqualified (score_lead ideal_contact) = false)
    by (vm_compute; reflexivity).
  split; [exact Hd |].
  destruct (tier_thresholds_inclusive ideal_contact Hd) as [HA _].
  apply HA. vm_compute. discriminate.
Defined.

(** Running [score_lead] returns the contact it was given, unchanged. *)
Lemma run_score_lead_st (c : contact) : run score_lead_st c = (score_lead c, c).
Proof.
  unfold score_lead, run, score_lead_st, get_st, mbind, St_bind, mret, St_ret.
  split_tests c; reflexivity.
Qed.

(** C6. [score_lead] leaves the contact as it found it and its result
    depends on the contact alone, so the double evaluation of
    [get_priority_list] builds the same list as scoring each contact once
    and keeping the qualified ones. *)
Theorem score_lead_deterministic_no_mutation :
  (forall c : contact, run score_lead_st c = (score_lead c, c)) /\
  (forall contacts : list contact,
     priority_scored contacts = score_all_qualified contacts).
Proof.
  split; [exact run_score_lead_st |].
  unfold score_all_qualified.
  induction contacts as [| c cs IH]; [reflexivity |].
  cbn [priority_scored map]. rewrite run_score_lead_st, filter_cons.
  rewrite run_score_lead_st. cbn [fst].
  destruct (disqualified (score_lead c)); cbn.
  - rewrite decide_False by discriminate. exact IH.
  - rewrite decide_True by reflexivity. now rewrite IH.
Qed.

Lemma score_lead_gaps (c : contact) :
  gaps (score_lead c) =
    (if company_type_ok c then []
     else ["✗ NOT A CREDIT UNION: " +:+ py_str (dict_get c "Company_Type" (PStr ""))]) ++
    (if has_auto_ok c then [] else ["✗ NO AUTO LENDING BUSINESS"]).
Proof. unfold_score_lead. split_tests c; reflexivity. Qed.

Lemma company_type_ok_true (c : contact) :
  company_type_ok c = true -> c !! "Company_Type" = Some (PStr "Credit Union").
Proof.
  unfold company_type_ok, dict_get. cbn.
  destruct (c !! "Company_Type") as [[s |] |]; cbn; try discriminate.
  rewrite orb_false_r. intros Hs. apply String.eqb_eq in Hs. now subst.
Qed.

Lemma has_auto_ok_true (c : contact) :
  has_auto_ok c = true -> c !! "Has_Auto_Lending" = Some (PStr "Yes").
Proof.
  unfold has_auto_ok, dict_get.
  destruct (c !! "Has_Auto_Lending") as [[s |] |]; cbn; try discriminate.
  intros Hs. apply String.eqb_eq in Hs. now subst.
Qed.

(** C7 (counterexample). A contact with no [State] field still satisfies
    the state criterion: the empty contact earns the 5 state points. *)
Lemma missing_state_satisfies_state_criterion :
  ~ (forall c : contact, c !! "State" = None -> state_ok c = false).
Proof.
  intros H. specialize (H ∅ eq_refl). discriminate H.
Qed.

Lemma py_in_true (v : pyval) (l : list string) :
  py_in v l = true -> exists s, v = PStr s /\ In s l.
Proof.
  unfold py_in. induction l as [| x l IH]; cbn; [discriminate |].
  intros Hv. apply orb_true_iff in Hv as [Hv | Hv].
  - destruct v as [s |]; cbn in Hv; [| discriminate].
    apply String.eqb_eq in Hv. subst. exists x. split; [reflexivity | now left].
  - destruct (IH Hv) as (s & Hs & Hin). exists s. split; [exact Hs | now right].
Qed.

(** [contact.get(k, '') in l] fails unless the field holds a string of
    [l], when [l] does not list the empty string. *)
Lemma dict_get_not_in (c : contact) (k : string) (l : list string) :
  ~ In "" l ->
  ~ (exists s, c !! k = Some (PStr s) /\ In s l) ->
  py_in (dict_get c k (PStr "")) l = false.
Proof.
  intros Hl Hne. destruct (py_in (dict_get c k (PStr "")) l) eqn:E; [| reflexivity].
  exfalso. apply py_in_true in E as (s & Hs & Hin).
  unfold dict_get in Hs. destruct (c !! k) as [v |] eqn:Hk.
  - apply Hne. exists s. subst v. split; [reflexivity | exact Hin].
  - injection Hs as <-. exact (Hl Hin).
Qed.

Ltac no_empty_option := cbn; intuition discriminate.

(** C7 (amended). [score_lead] is a total function of the contact. A
    [Company_Type] other than "Credit Union" and a [Has_Auto_Lending]
    other than "Yes" (missing, empty, [None] or any other value) fail
    their criterion, disqualify and add a gap. A missing or malformed
    [Company_Size], [Job_Title] or [Source], that is any value other than
    a string of the preferred list (an absent column, an empty cell [''],
    the [None] of a short row, or another string), fails its criterion.
    The state criterion is met by every contact, whether [State] is
    present or not. *)
Theorem missing_fields_degrade (c : contact) :
  (c !! "Company_Type" <> Some (PStr "Credit Union") ->
     company_type_ok c = false /\ disqualified (score_lead c) = true /\
     In ("✗ NOT A CREDIT UNION: " +:+ py_str (dict_get c "Company_Type" (PStr "")))
        (gaps (score_lead c))) /\
  (c !! "Has_Auto_Lending" <> Some (PStr "Yes") ->
     has_auto_ok c = false /\ disqualified (score_lead c) = true /\
     In "✗ NO AUTO LENDING BUSINESS" (gaps (score_lead c))) /\
  (~ (exists s, c !! "Company_Size" = Some (PStr s) /\
                In s (pref_company_size (icp_pref ICP_CONFIG))) ->
     company_size_ok c = false) /\
  (~ (exists s, c !! "Job_Title" = Some (PStr s) /\
                In s (pref_titles (icp_pref ICP_CONFIG))) ->
     title_ok c = false) /\
  (~ (exists s, c !! "Source" = Some (PStr s) /\
                In s (pref_sources (icp_pref ICP_CONFIG))) ->
     source_ok c = false) /\
  state_ok c = true.
Proof.
  split; [| split; [| split; [| split; [| split]]]].
  - intros Hne.
    assert (Hf : company_type_ok c = false).
    { destruct (company_type_ok c) eqn:E; [|reflexivity].
      exfalso. apply Hne, company_type_ok_true, E. }
    split; [exact Hf | split].
    + rewrite score_lead_disqualified, Hf. reflexivity.
    + rewrite score_lead_gaps, Hf. apply in_or_app. left. now left.
  - intros Hne.
    assert (Hf : has_auto_ok c = false).
    { destruct (has_auto_ok c) eqn:E; [|reflexivity].
      exfalso. apply Hne, has_auto_ok_true, E. }
    split; [exact Hf | split].
    + rewrite score_lead_disqualified, Hf, andb_false_r. reflexivity.
    + rewrite score_lead_gaps, Hf. apply in_or_app. right. now left.
  - intros Hn. apply dict_get_not_in; [no_empty_option | exact Hn].
  - intros Hn. apply dict_get_not_in; [no_empty_option | exact Hn].
  - intros Hn. apply dict_get_not_in; [no_empty_option | exact Hn].
  - apply state_ok_always.
Qed.

(** A short CSV row: [Company_Size] is [None], [Job_Title] an empty
    cell, [Source] a string outside the list; nothing else is present. *)
Definition short_row_contact : contact :=
  <["Company_Size" := PNone]> (<["Job_Title" := PStr ""]> (<["Source" := PStr "Trade Show"]> ∅)).

Lemma missing_fields_degrade_witness :
  short_row_contact !! "Has_Auto_Lending" = None /\
  disqualified (score_lead short_row_contact) = true /\
  In "✗ NO AUTO LENDING BUSINESS" (gaps (score_lead short_row_contact)) /\
  short_row_contact !! "Company_Size" = Some PNone /\
  company_size_ok short_row_contact = false /\
  short_row_contact !! "Job_Title" = Some (PStr "") /\
  title_ok short_row_contact = false /\
  short_row_contact !! "Source" = Some (PStr "Trade Show") /\
  source_ok short_row_contact = false /\
  state_ok short_row_contact = true.
Proof.
  assert (Hn : short_row_contact !! "Has_Auto_Lending" = None) by reflexivity.
  assert (Hz : short_row_contact !! "Company_Size" = Some PNone) by reflexivity.
  assert (Ht : short_row_contact !! "Job_Title" = Some (PStr "")) by reflexivity.
  assert (Hso : short_row_contact !! "Source" = Some (PStr "Trade Show")) by reflexivity.
  destruct (missing_fields_degrade short_row_contact) as [_ [Ha [Hsz [Hti [Hsr Hs]]]]].
  destruct Ha as [_ Ha]; [rewrite Hn; discriminate |].
  split; [exact Hn |].
  split; [exact (proj1 Ha) | split; [exact (proj2 Ha) |]].
  split; [exact Hz |].
  split; [apply Hsz; rewrite Hz; intros (s & Hs' & _); discriminate Hs' |].
  split; [exact Ht |].
  split; [apply Hti; rewrite Ht; intros (s & Hs' & Hin); injection Hs' as <-;
          revert Hin; no_empty_option |].
  split; [exact Hso |].
  split; [apply Hsr; rewrite Hso; intros (s & Hs' & Hin); injection Hs' as <-;
          revert Hin; no_empty_option |].
  exact Hs.
Defined.

(** ** Ranking *)

Fixpoint desc_sorted (l : list ScoredLead) : bool :=
  match l with
  | x :: ((y :: _) as l') => (score_pct y <=? score_pct x)%Z && desc_sorted l'
  | _ => true
  end.

Lemma insert_desc_sorted (x : ScoredLead) (l : list ScoredLead) :
  desc_sorted l = true -> desc_sorted (insert_desc x l) = true.
Proof.
  induction l as [| y l IH]; [reflexivity |].
  intros Hs. cbn [insert_desc].
  destruct (Z.leb_spec (score_pct y) (score_pct x)) as [Hle | Hgt].
  - cbn [desc_sorted]. apply andb_true_intro. split; [now apply Z.leb_le | exact Hs].
  - assert (Hl : desc_sorted l = true).
    { destruct l as [| z l]; [reflexivity |]. cbn in Hs. now apply andb_true_iff in Hs. }
    specialize (IH Hl).
    destruct l as [| z l]; cbn in *.
    + rewrite andb_true_r. apply Z.leb_le. lia.
    + apply andb_true_iff in Hs as [Hzy _].
      destruct (Z.leb_spec (score_pct z) (score_pct x)).
      * cbn in IH |- *. apply andb_true_intro. split; [apply Z.leb_le; lia | exact IH].
      * cbn in IH |- *. rewrite Hzy. exact IH.
Qed.

Lemma sort_by_score_pct_sorted (l : list ScoredLead) :
  desc_sorted (sort_by_score_pct l) = true.
Proof.
  induction l as [| x l IH]; [reflexivity |].
  cbn [sort_by_score_pct]. now apply insert_desc_sorted.
Qed.

Lemma sort_by_score_pct_sorted_id (l : list ScoredLead) :
  desc_sorted l = true -> sort_by_score_pct l = l.
Proof.
  induction l as [| x l IH]; [reflexivity |].
  intros Hs. cbn [sort_by_score_pct].
  destruct l as [| y l]; [reflexivity |].
  cbn [desc_sorted] in Hs. apply andb_true_iff in Hs as [Hxy Hs].
  rewrite (IH Hs). cbn [insert_desc]. now rewrite Hxy.
Qed.

Definition with_pct (k : Z) (l : list ScoredLead) : list ScoredLead :=
  List.filter (fun y => Z.eqb (score_pct y) k) l.

Lemma insert_desc_with_pct (k : Z) (x : ScoredLead) (l : list ScoredLead) :
  with_pct k (insert_desc x l) = with_pct k (x :: l).
Proof.
  unfold with_pct.
  induction l as [| y l IH]; [reflexivity |].
  cbn [insert_desc].
  destruct (Z.leb_spec (score_pct y) (score_pct x)) as [Hle | Hgt]; [reflexivity |].
  cbn [List.filter]. rewrite IH. cbn [List.filter].
  destruct (Z.eqb_spec (score_pct y) k), (Z.eqb_spec (score_pct x) k);
    try reflexivity; lia.
Qed.

(** C8. Sorting by score_pct descending is idempotent, and it keeps leads
    with equal score_pct in their original order. *)
Theorem sort_by_score_pct_idempotent_stable (l : list ScoredLead) :
  sort_by_score_pct (sort_by_score_pct l) = sort_by_score_pct l /\
  (forall k : Z, with_pct k (sort_by_score_pct l) = with_pct k l).
Proof.
  split; [apply sort_by_score_pct_sorted_id, sort_by_score_pct_sorted |].
  intros k. induction l as [| x l IH]; [reflexivity |].
  cbn [sort_by_score_pct]. rewrite insert_desc_with_pct.
  unfold with_pct in *. cbn [List.filter]. now rewrite IH.
Qed.

(** ** Fields that are never read *)

(** C9. Two contacts that agree on every field except [Country] get the
    same result: [score_lead] never reads [Country]. *)
Theorem score_lead_country_independent (c1 c2 : contact)
  (H : forall k : string, k <> "Country" -> c1 !! k = c2 !! k) :
  score_lead c1 = score_lead c2.
Proof.
  assert (Hg : forall k d, k <> "Country" -> dict_get c1 k d = dict_get c2 k d).
  { intros k d Hk. unfold dict_get. now rewrite (H k Hk). }
  unfold score_lead, run, score_lead_st, get_st, mbind, St_bind, mret, St_ret.
  repeat (cbv beta iota zeta;
          repeat (rewrite Hg by (intros E; discriminate E));
          match goal with
          | |- context [if ?b then _ else _] => destruct b
          | |- context [tier_of ?p] => destruct (tier_of p)
          end);
  cbv beta iota zeta; repeat (rewrite Hg by (intros E; discriminate E));
  reflexivity.
Qed.

Lemma score_lead_country_independent_witness :
  (forall k : string, k <> "Country" -> canadian_contact !! k = ideal_contact !! k) /\
  score_lead canadian_contact = score_lead ideal_contact.
Proof.
  assert (Hk : forall k : string, k <> "Country" ->
                 canadian_contact !! k = ideal_contact !! k).
  { intros k Hne. unfold canadian_contact. apply lookup_insert_ne. congruence. }
  split; [exact Hk |].
  apply (score_lead_country_independent canadian_contact ideal_contact Hk).
Defined.

(** C10. Under [ICP_CONFIG] a contact that is not disqualified scores at
    least 75 (score_pct at least 75.0), and no contact gets the tier
    "D - Weak". *)
Theorem no_weak_tier (c : contact) :
  tier (score_lead c) <> "D - Weak" /\
  (disqualified (score_lead c) = false ->
     (75 <= score (score_lead c))%Z /\ (750 <= score_pct (score_lead c))%Z).
Proof.
  assert (Hq : disqualified (score_lead c) = false ->
                 (75 <= score (score_lead c))%Z /\ (750 <= score_pct (score_lead c))%Z).
  { intros Hd.
    assert (Hs : (75 <= score (score_lead c))%Z).
    { rewrite score_lead_disqualified in Hd.
      rewrite score_lead_score, state_ok_always.
      destruct (company_type_ok c), (has_auto_ok c); try discriminate Hd;
      destruct (company_size_ok c), (title_ok c), (source_ok c); cbn; lia. }
    split; [exact Hs |].
    rewrite score_lead_score_pct, Hd, pct_tenths_exact. lia. }
  split; [| exact Hq].
  rewrite score_lead_tier.
  destruct (disqualified (score_lead c)) eqn:Hd; [discriminate |].
  destruct (Hq eq_refl) as [_ Hp].
  unfold tier_of.
  destruct (Z.leb_spec 900 (score_pct (score_lead c))); [discriminate |].
  destruct (Z.leb_spec 800 (score_pct (score_lead c))); [discriminate |].
  destruct (Z.leb_spec 700 (score_pct (score_lead c))); [discriminate | lia].
Qed.

Lemma no_weak_tier_witness :
  disqualified (score_lead plain_cu_contact) = false /\
  (75 <= score (score_lead plain_cu_contact))%Z /\
  tier (score_lead plain_cu_contact) <> "D - Weak".
Proof.
  assert (Hd : disqualified (score_lead plain_cu_contact) = false)
    by (vm_compute; reflexivity).
  destruct (no_weak_tier plain_cu_contact) as [Ht Hq].
  split; [exact Hd | split; [exact (proj1 (Hq Hd)) | exact Ht]].
Defined.

(** * Further properties of the server *)

(** ** Ranking *)

Lemma insert_desc_perm (x : ScoredLead) (l : list ScoredLead) :
  insert_desc x l ≡ₚ x :: l.
Proof.
  induction l as [| y l IH]; cbn [insert_desc]; [reflexivity |].
  destruct (score_pct y <=? score_pct x)%Z; [reflexivity |].
  rewrite IH. constructor.
Qed.

Lemma sort_by_score_pct_perm_aux (l : list ScoredLead) :
  sort_by_score_pct l ≡ₚ l.
Proof.
  induction l as [| x l IH]; cbn [sort_by_score_pct]; [reflexivity |].
  rewrite insert_desc_perm, IH. reflexivity.
Qed.

(** X1. The ranking is a permutation: no lead is lost or duplicated. *)
Theorem sort_by_score_pct_permutation (l : list ScoredLead) :
  sort_by_score_pct l ≡ₚ l.
Proof. apply sort_by_score_pct_perm_aux. Qed.

Lemma desc_sorted_head_max (y : ScoredLead) (l : list ScoredLead) :
  desc_sorted (y :: l) = true -> forall z, In z l -> (score_pct z <= score_pct y)%Z.
Proof.
  revert y. induction l as [| z' l IH]; intros y Hs z Hz; [destruct Hz |].
  cbn [desc_sorted] in Hs. apply andb_true_iff in Hs as [Hle Hs].
  apply Z.leb_le in Hle.
  destruct Hz as [<- | Hz]; [exact Hle |].
  specialize (IH z' Hs z Hz). lia.
Qed.

Lemma desc_sorted_tail (y : ScoredLead) (l : list ScoredLead) :
  desc_sorted (y :: l) = true -> desc_sorted l = true.
Proof.
  destruct l as [| z l]; [reflexivity |].
  cbn [desc_sorted]. intros Hs. now apply andb_true_iff in Hs as [_ Hs].
Qed.

Lemma insert_desc_front (x : ScoredLead) (l : list ScoredLead) :
  (forall z, In z l -> (score_pct z <= score_pct x)%Z) -> insert_desc x l = x :: l.
Proof.
  destruct l as [| y l]; intros H; [reflexivity |].
  cbn [insert_desc]. rewrite (proj2 (Z.leb_le _ _)); [reflexivity |].
  apply H. now left.
Qed.

Section FilterRanking.
Context (P : ScoredLead -> Prop) `{!forall s, Decision (P s)}.

Lemma filter_insert_desc (x : ScoredLead) (l : list ScoredLead) :
  desc_sorted l = true ->
  filter P (insert_desc x l) =
    if decide (P x) then insert_desc x (filter P l) else filter P l.
Proof.
  induction l as [| y l IH]; intros Hs.
  - cbn [insert_desc]. rewrite filter_cons.
    destruct (decide (P x)); reflexivity.
  - cbn [insert_desc].
    destruct (Z.leb_spec (score_pct y) (score_pct x)) as [Hle | Hgt].
    + rewrite filter_cons. destruct (decide (P x)); [| reflexivity].
      symmetry. apply insert_desc_front.
      intros z Hz. apply list_elem_of_In, list_elem_of_filter in Hz as [_ Hz].
      apply list_elem_of_In in Hz.
      destruct Hz as [<- | Hz]; [exact Hle |].
      pose proof (desc_sorted_head_max y l Hs z Hz). lia.
    + rewrite !filter_cons, (IH (desc_sorted_tail y l Hs)).
      destruct (decide (P y)), (decide (P x)); try reflexivity.
      cbn [insert_desc]. rewrite (proj2 (Z.leb_gt _ _) Hgt). reflexivity.
Qed.

(** X2. Filtering a ranked list gives the ranking of the filtered list:
    [score_all_leads] and [main] filter before sorting, and sorting
    first would show the same leads in the same order. *)
Theorem filter_sort_by_score_pct_commute (l : list ScoredLead) :
  filter P (sort_by_score_pct l) = sort_by_score_pct (filter P l).
Proof.
  induction l as [| x l IH]; [reflexivity |].
  cbn [sort_by_score_pct].
  rewrite filter_insert_desc by apply sort_by_score_pct_sorted.
  rewrite filter_cons, IH.
  destruct (decide (P x)); reflexivity.
Qed.
End FilterRanking.

(** ** Invariants of one scored lead *)

(** X3. A lead is disqualified exactly when it has a gap, and it has one
    gap per failed required test (company type, auto lending). *)
Theorem disqualified_iff_gaps (c : contact) :
  (disqualified (score_lead c) = true <-> gaps (score_lead c) <> []) /\
  List.length (gaps (score_lead c)) =
    ((if company_type_ok c then 0 else 1) + (if has_auto_ok c then 0 else 1))%nat.
Proof.
  rewrite score_lead_disqualified, score_lead_gaps.
  destruct (company_type_ok c), (has_auto_ok c); cbn; split;
    try reflexivity; split; intros H; try discriminate; try congruence.
Qed.

(** X4. Every criterion leaves exactly one line in [reasons] or [gaps]:
    together they always hold six lines. *)
Theorem reasons_gaps_six (c : contact) :
  (List.length (reasons (score_lead c)) + List.length (gaps (score_lead c)) = 6)%nat.
Proof. unfold_score_lead. split_tests c; reflexivity. Qed.

Lemma score_lead_score_range (c : contact) : (5 <= score (score_lead c) <= 100)%Z.
Proof.
  rewrite score_lead_score, state_ok_always.
  destruct (company_type_ok c), (has_auto_ok c), (company_size_ok c),
    (title_ok c), (source_ok c); cbn; lia.
Qed.

(** X5. The raw score lies between 5 and [max_score] = 100; score_pct is
    0 for a disqualified lead and otherwise the score itself (ten times
    it in tenths), so it never exceeds 100.0. *)
Theorem score_bounds (c : contact) :
  (5 <= score (score_lead c) <= max_score)%Z /\
  score_pct (score_lead c) =
    (if disqualified (score_lead c) then 0 else 10 * score (score_lead c))%Z /\
  (0 <= score_pct (score_lead c) <= 1000)%Z.
Proof.
  pose proof (score_lead_score_range c) as Hs.
  assert (Hp : score_pct (score_lead c) =
    (if disqualified (score_lead c) then 0 else 10 * score (score_lead c))%Z).
  { rewrite score_lead_score_pct, pct_tenths_exact. reflexivity. }
  split; [exact Hs | split; [exact Hp |]].
  rewrite Hp. destruct (disqualified (score_lead c)); lia.
Qed.

(** X6. The priority marker always matches the tier. *)
Theorem priority_matches_tier (c : contact) :
  In (tier (score_lead c), priority (score_lead c))
     [("DISQUALIFIED", "❌"); ("A - Excellent", "🔥"); ("B - Strong", "✅");
      ("C - Qualified", "⚠️"); ("D - Weak", "🤔")].
Proof.
  unfold_score_lead. split_tests c;
  repeat match goal with
         | |- context [tier_of ?p] =>
             unfold tier_of;
             destruct (900 <=? p)%Z; [| destruct (800 <=? p)%Z;
               [| destruct (700 <=? p)%Z]]
         end; cbn; tauto.
Qed.

(** X7. Scoring is monotone: a contact that passes every test another
    contact passes gets at least its score and score_pct, and is not
    disqualified if the other is not. *)
Theorem score_lead_monotone (c c' : contact)
  (Hct : company_type_ok c = true -> company_type_ok c' = true)
  (Ha : has_auto_ok c = true -> has_auto_ok c' = true)
  (Hsz : company_size_ok c = true -> company_size_ok c' = true)
  (Ht : title_ok c = true -> title_ok c' = true)
  (Hsrc : source_ok c = true -> source_ok c' = true) :
  (score (score_lead c) <= score (score_lead c'))%Z /\
  (score_pct (score_lead c) <= score_pct (score_lead c'))%Z /\
  (disqualified (score_lead c) = false -> disqualified (score_lead c') = false).
Proof.
  assert (Hs : (score (score_lead c) <= score (score_lead c'))%Z).
  { rewrite !score_lead_score, !state_ok_always.
    destruct (company_type_ok c), (company_type_ok c'); [| specialize (Hct eq_refl); discriminate | |];
    destruct (has_auto_ok c), (has_auto_ok c'); try (specialize (Ha eq_refl); discriminate);
    destruct (company_size_ok c), (company_size_ok c'); try (specialize (Hsz eq_refl); discriminate);
    destruct (title_ok c), (title_ok c'); try (specialize (Ht eq_refl); discriminate);
    destruct (source_ok c), (source_ok c'); try (specialize (Hsrc eq_refl); discriminate);
    cbn; lia. }
  assert (Hd : disqualified (score_lead c) = false -> disqualified (score_lead c') = false).
  { rewrite !score_lead_disqualified. intros H.
    destruct (company_type_ok c), (has_auto_ok c); try discriminate H.
    now rewrite (Hct eq_refl), (Ha eq_refl). }
  split; [exact Hs | split; [| exact Hd]].
  rewrite !score_lead_score_pct, !pct_tenths_exact.
  destruct (disqualified (score_lead c)) eqn:E1.
  - destruct (disqualified (score_lead c')); [lia |].
    pose proof (score_lead_score_range c'). lia.
  - rewrite (Hd eq_refl). lia.
Qed.

(** The contact fields [score_lead] reads. *)
Definition read_keys : list string :=
  ["Company_Type"; "Has_Auto_Lending"; "Company_Size"; "Job_Title"; "Source";
   "State"; "Contact_ID"; "Person_Name"; "Company_Name"; "Email"; "Phone";
   "Created_Date"].

(** X8. [score_lead] depends on the twelve fields of [read_keys] only:
    two contacts that agree on them (whatever their [Country], [City] or
    any other column) get the same result. *)
Theorem score_lead_reads_only (c1 c2 : contact)
  (H : forall k : string, In k read_keys -> c1 !! k = c2 !! k) :
  score_lead c1 = score_lead c2.
Proof.
  assert (Hg : forall k d, In k read_keys -> dict_get c1 k d = dict_get c2 k d).
  { intros k d Hk. unfold dict_get. now rewrite (H k Hk). }
  unfold score_lead, run, score_lead_st, get_st, mbind, St_bind, mret, St_ret.
  repeat (cbv beta iota zeta;
          repeat (rewrite Hg by (cbn; tauto));
          match goal with
          | |- context [if ?b then _ else _] => destruct b
          | |- context [tier_of ?p] => destruct (tier_of p)
          end);
  cbv beta iota zeta; repeat (rewrite Hg by (cbn; tauto));
  reflexivity.
Qed.

Lemma score_lead_reads_only_witness :
  (forall k : string, In k read_keys ->
     (<["City" := PStr "Austin"]> plain_cu_contact) !! k = plain_cu_contact !! k) /\
  score_lead (<["City" := PStr "Austin"]> plain_cu_contact) = score_lead plain_cu_contact.
Proof.
  assert (Hk : forall k : string, In k read_keys ->
     (<["City" := PStr "Austin"]> plain_cu_contact) !! k = plain_cu_contact !! k).
  { intros k Hin. apply lookup_insert_ne.
    intros <-. cbn in Hin. repeat (destruct Hin as [Hin | Hin]; [discriminate Hin |]).
    destruct Hin. }
  split; [exact Hk |].
  apply (score_lead_reads_only _ _ Hk).
Defined.

(** ** Reading the contacts from S3 *)

Lemma read_contacts_cases (env : s3_env) :
  match read_contacts_from_s3 env with
  | (Some _, None) => True
  | (None, Some e) => e <> ""
  | _ => False
  end.
Proof.
  unfold read_contacts_from_s3.
  destruct (list_objects_v2 env) as [[contents |] | e]; [| discriminate | discriminate].
  destruct (sort_desc_by LastModified contents) as [| latest rest]; [discriminate |].
  destruct (get_object_rows env (Key latest)); [exact I | discriminate].
Qed.

(** X9. [read_contacts_from_s3] returns exactly one of the contact list
    and an error message, and the message is never empty, so the
    [if error:] test of [call_tool] catches every failure. *)
Theorem read_contacts_result_exclusive (env : s3_env) :
  match read_contacts_from_s3 env with
  | (Some _, None) => True
  | (None, Some e) => e <> ""
  | _ => False
  end.
Proof. apply read_contacts_cases. Qed.

Lemma sort_desc_by_head {A} (key : A -> Z) (l : list A) :
  l <> [] ->
  exists pre o suf rest,
    l = pre ++ o :: suf /\
    (forall x, In x pre -> (key x < key o)%Z) /\
    (forall x, In x suf -> (key x <= key o)%Z) /\
    sort_desc_by key l = o :: rest.
Proof.
  induction l as [| x l IH]; intros Hne; [congruence |].
  destruct l as [| y l].
  - exists [], x, [], []. cbn. repeat split; intros z Hz; destruct Hz.
  - destruct (IH ltac:(discriminate)) as (pre & o & suf & rest & Hl & Hpre & Hsuf & Hs).
    cbn [sort_desc_by]. cbn [sort_desc_by] in Hs. rewrite Hs. cbn [insert_desc_by].
    destruct (Z.leb_spec (key o) (key x)) as [Hle | Hgt].
    + exists [], x, (y :: l), (o :: rest).
      split; [reflexivity | split; [intros z Hz; destruct Hz | split; [| reflexivity]]].
      intros z Hz. rewrite Hl in Hz. apply in_app_or in Hz as [Hz | [<- | Hz]].
      * specialize (Hpre z Hz). lia.
      * exact Hle.
      * specialize (Hsuf z Hz). lia.
    + exists (x :: pre), o, suf, (insert_desc_by key x rest).
      split; [now rewrite Hl | split; [| split; [exact Hsuf | reflexivity]]].
      intros z [<- | Hz]; [exact Hgt | exact (Hpre z Hz)].
Qed.

(** X11. With a non-empty listing, the file read is the first object of
    the listing among those with the latest [LastModified]. *)
Theorem read_contacts_latest (env : s3_env) (contents : list s3_object)
  (H : list_objects_v2 env = inl (Some contents)) (Hne : contents <> []) :
  exists pre o suf,
    contents = pre ++ o :: suf /\
    (forall x, In x pre -> (LastModified x < LastModified o)%Z) /\
    (forall x, In x suf -> (LastModified x <= LastModified o)%Z) /\
    read_contacts_from_s3 env =
      match get_object_rows env (Key o) with
      | inl contacts => (Some contacts, None)
      | inr e => (None, Some ("Error reading contacts: " +:+ e))
      end.
Proof.
  destruct (sort_desc_by_head LastModified contents Hne)
    as (pre & o & suf & rest & Hl & Hpre & Hsuf & Hs).
  exists pre, o, suf. split; [exact Hl | split; [exact Hpre | split; [exact Hsuf |]]].
  unfold read_contacts_from_s3. rewrite H, Hs. reflexivity.
Qed.

Definition two_files_env : s3_env :=
  {| list_objects_v2 :=
       inl (Some [{| Key := "crm-data/contacts_20240101_090000.csv"; LastModified := 1 |};
                  {| Key := "crm-data/contacts_20240301_090000.csv"; LastModified := 3 |};
                  {| Key := "crm-data/contacts_20240301_090000b.csv"; LastModified := 3 |}]);
     get_object_rows := fun k =>
       if String.eqb k "crm-data/contacts_20240301_090000.csv"
       then inl [ideal_contact; bank_contact] else inr "NoSuchKey" |}.

Example read_contacts_two_files :
  read_contacts_from_s3 two_files_env = (Some [ideal_contact; bank_contact], None).
Proof. vm_compute. reflexivity. Qed.

Lemma read_contacts_latest_witness :
  exists contents,
    list_objects_v2 two_files_env = inl (Some contents) /\ contents <> [] /\
    exists pre o suf,
      contents = pre ++ o :: suf /\
      (forall x, In x pre -> (LastModified x < LastModified o)%Z) /\
      (forall x, In x suf -> (LastModified x <= LastModified o)%Z) /\
      read_contacts_from_s3 two_files_env =
        match get_object_rows two_files_env (Key o) with
        | inl contacts => (Some contacts, None)
        | inr e => (None, Some ("Error reading contacts: " +:+ e))
        end.
Proof.
  eexists. split; [reflexivity |]. split; [discriminate |].
  exact (read_contacts_latest two_files_env _ eq_refl ltac:(discriminate)).
Defined.

(** ** The tools *)

(** [int()] on some strings a client may send as [count]. *)
Example py_int_str_examples :
  py_int_str " 12 " = inl 12%Z /\ py_int_str "+5" = inl 5%Z /\
  py_int_str "-0012" = inl (-12)%Z /\ py_int_str "1_000" = inl 1000%Z /\
  py_int_str "ten" = inr ValueError /\ py_int_str "_1" = inr ValueError /\
  py_int_str "1__0" = inr ValueError /\ py_int_str "1_" = inr ValueError /\
  py_int_str "- 5" = inr ValueError /\ py_int_str "1e3" = inr ValueError /\
  py_int_str "" = inr ValueError.
Proof. vm_compute. repeat split. Qed.



Lemma priority_scored_single (contacts : list contact) :
  priority_scored contacts = score_all_qualified contacts.
Proof.
  unfold score_all_qualified.
  induction contacts as [| c cs IH]; [reflexivity |].
  cbn [priority_scored map]. rewrite run_score_lead_st, filter_cons.
  rewrite run_score_lead_st. cbn [fst].
  destruct (disqualified (score_lead c)); cbn.
  - rewrite decide_False by discriminate. exact IH.
  - rewrite decide_True by reflexivity. now rewrite IH.
Qed.

(** X13. The three views agree: with [qualified_only] truthy (the
    default), [score_all_leads] ranks the same leads in the same order
    as [get_priority_list], and the test mode of [main] shows the first
    five of them. *)
Theorem tool_rankings_agree (contacts : list contact) (a : arguments)
  (Hq : py_truthy (args_get a "qualified_only" (JBool true)) = true) :
  score_all_leads_ranked contacts a = priority_ranked contacts /\
  main_test_top5 contacts = py_take 5 (priority_ranked contacts).
Proof.
  unfold score_all_leads_ranked, priority_ranked, main_test_top5.
  rewrite Hq, priority_scored_single. split; reflexivity.
Qed.

Lemma tool_rankings_agree_witness :
  py_truthy (args_get ∅ "qualified_only" (JBool true)) = true /\
  score_all_leads_ranked [bank_contact; plain_cu_contact; ideal_contact] ∅ =
    priority_ranked [bank_contact; plain_cu_contact; ideal_contact].
Proof.
  split; [reflexivity |].
  exact (proj1 (tool_rankings_agree _ ∅ eq_refl)).
Defined.

(** X14. [l[:n]] is a prefix of [l]; for [n >= 0] it has [min n (len l)]
    elements, for a negative [n] it drops the last [-n] (and is empty
    when [-n >= len l]). So [get_priority_list] with [count = 0] shows no
    lead, with a count past the end shows them all, and with a negative
    count drops the lowest-ranked ones. *)
Theorem py_take_prefix_length {A} (n : Z) (l : list A) :
  (exists rest, py_take n l ++ rest = l) /\
  Z.of_nat (List.length (py_take n l)) =
    (if (0 <=? n)%Z then Z.min n (Z.of_nat (List.length l))
     else Z.max 0 (Z.of_nat (List.length l) + n))%Z.
Proof.
  unfold py_take.
  destruct (Z.leb_spec 0 n) as [Hn | Hn].
  - split; [exists (skipn (Z.to_nat n) l); apply firstn_skipn |].
    rewrite length_firstn. lia.
  - split; [eexists; apply firstn_skipn |].
    rewrite length_firstn. lia.
Qed.

(** X15. The list [score_all_leads] renders is ranked by score_pct
    descending; with [qualified_only] truthy it holds no disqualified
    lead and its length (the "Qualified" count) is the number of
    qualified contacts, otherwise it holds one lead per contact. *)
Theorem score_all_leads_ranked_spec (contacts : list contact) (a : arguments) :
  let ranked := score_all_leads_ranked contacts a in
  desc_sorted ranked = true /\
  (py_truthy (args_get a "qualified_only" (JBool true)) = true ->
     (forall s, In s ranked -> disqualified s = false) /\
     List.length ranked = List.length (score_all_qualified contacts)) /\
  (py_truthy (args_get a "qualified_only" (JBool true)) = false ->
     List.length ranked = List.length contacts).
Proof.
  cbv zeta. unfold score_all_leads_ranked.
  split; [apply sort_by_score_pct_sorted |].
  split; intros Hq; rewrite Hq.
  - split.
    + intros s Hs. apply list_elem_of_In in Hs.
      rewrite (sort_by_score_pct_perm_aux _) in Hs.
      apply list_elem_of_filter in Hs as [Hs _].
      destruct (disqualified s); [discriminate Hs | reflexivity].
    + apply Permutation_length, sort_by_score_pct_perm_aux.
  - rewrite (Permutation_length (sort_by_score_pct_perm_aux _)).
    apply length_map.
Qed.

Lemma score_all_leads_ranked_spec_witness :
  py_truthy (args_get ∅ "qualified_only" (JBool true)) = true /\
  List.length (score_all_leads_ranked [bank_contact; plain_cu_contact] ∅) =
    List.length (score_all_qualified [bank_contact; plain_cu_contact]).
Proof.
  split; [reflexivity |].
  exact (proj2 (proj1 (proj2 (score_all_leads_ranked_spec
                               [bank_contact; plain_cu_contact] ∅)) eq_refl)).
Defined.

Lemma score_lead_monotone_witness :
  (score (score_lead plain_cu_contact) <= score (score_lead ideal_contact))%Z.
Proof.
  apply (score_lead_monotone plain_cu_contact ideal_contact);
    intros _; vm_compute; reflexivity.
Defined.

(** X16. Both tools print a qualified lead's percentage as its score
    followed by ".0" (scores are whole points out of 100) and a
    disqualified lead's as the integer "0". *)
Theorem pct_str_score_lead (c : contact) :
  pct_str (score_lead c) =
    if disqualified (score_lead c) then "0"
    else pretty (score (score_lead c)) +:+ ".0".
Proof.
  unfold pct_str. rewrite score_lead_score_pct, pct_tenths_exact.
  destruct (disqualified (score_lead c)); [reflexivity |].
  rewrite (Z.mul_comm 10), Z.div_mul, Z.mod_mul by lia. reflexivity.
Qed.
